(** * scripts/process_ipad_screenshot.py

    A shallow embedding of the iPad screenshot processor and the
    properties of its two functions, [process_screenshot] and [main].

    The script is a thin driver around three libraries: the Python
    builtins ([int], [print], [sys.exit]), [pathlib.Path] and Pillow
    ([Image.open], [rotate], [crop], [convert], [save]).  [pathlib] and
    the builtins that the script depends on are modelled below; the Pillow
    codec and pixel operations are an interface ([Pillow]) that every
    theorem quantifies over, with a small executable instance
    ([RefPillow]) on which the scenarios are run. *)

From Stdlib Require Import ZArith Ascii String List Bool Lia.
From Stdlib Require Import Init.Byte.
From stdpp Require Import base tactics option list strings gmap pretty.

Local Open Scope string_scope.
Local Open Scope list_scope.
Local Open Scope Z_scope.

(** ** Python strings

    A Python [str] is modelled as a Rocq [string]; the helper functions
    work on its list of characters. *)

Module PyStr.

Definition chars (s : string) : list ascii := list_ascii_of_string s.
Definition of_chars (l : list ascii) : string := string_of_list_ascii l.

(** [c.lower()] on one character: [A]..[Z] move to [a]..[z], every other
    character is left alone. *)
Definition lower_char (c : ascii) : ascii :=
  let n := nat_of_ascii c in
  if ((65 <=? n) && (n <=? 90))%nat then ascii_of_nat (n + 32) else c.

(** [s.lower()] *)
Definition lower (s : string) : string := of_chars (map lower_char (chars s)).

(** [s.split(sep)] for a one-character separator: always at least one
    piece, empty pieces kept. *)
Fixpoint split (sep : ascii) (l : list ascii) : list (list ascii) :=
  match l with
  | [] => [[]]
  | c :: l' =>
      if Ascii.eqb c sep then [] :: split sep l'
      else match split sep l' with
           | piece :: pieces => (c :: piece) :: pieces
           | [] => [[c]]
           end
  end.

(** [s.rfind(c)]: index of the last occurrence, [None] for Python's -1. *)
Fixpoint rfind_opt (c : ascii) (l : list ascii) : option nat :=
  match l with
  | [] => None
  | x :: l' =>
      match rfind_opt c l' with
      | Some i => Some (S i)
      | None => if Ascii.eqb x c then Some 0%nat else None
      end
  end.

Definition rfind (c : ascii) (l : list ascii) : Z :=
  match rfind_opt c l with
  | Some i => Z.of_nat i
  | None => -1
  end.

(** [needle in hay] for strings. *)
Fixpoint starts_with (p l : list ascii) : bool :=
  match p, l with
  | [], _ => true
  | _ :: _, [] => false
  | a :: p', b :: l' => Ascii.eqb a b && starts_with p' l'
  end.

Fixpoint contains_chars (p l : list ascii) : bool :=
  starts_with p l ||
  match l with
  | [] => false
  | _ :: l' => contains_chars p l'
  end.

Definition contains (needle hay : string) : bool :=
  contains_chars (chars needle) (chars hay).

End PyStr.

(** ** pathlib

    [Path(p).name] and [Path(p).suffix] for POSIX paths.  [Path] splits
    the text on [/] and drops the empty and the [.] components; [name] is
    the last component left (the empty string when there is none), and
    [suffix] is

      i = name.rfind('.')
      name[i:] if 0 < i < len(name) - 1 else ''                          *)

Module Path.

Definition is_part (x : list ascii) : bool :=
  negb (bool_decide (x = [])) && negb (bool_decide (x = ["."%char])).

Definition parts (p : string) : list (list ascii) :=
  filter (fun x => is_part x = true) (PyStr.split "/"%char (PyStr.chars p)).

Definition name_chars (p : string) : list ascii := List.last (parts p) [].

Definition suffix (p : string) : string :=
  let name := name_chars p in
  let i := PyStr.rfind "."%char name in
  if (0 <? i) && (i <? Z.of_nat (length name) - 1)
  then PyStr.of_chars (drop (Z.to_nat i) name)
  else "".

End Path.

(** ** Exceptions and results *)

Inductive exn : Type :=
| FileNotFoundError (path : string)
| IsADirectoryError (path : string)
| UnidentifiedImageError
| ValueError (msg : string)
| OSError (msg : string)
| SystemError (msg : string)
| SystemExit (code : Z).

Inductive result (A : Type) : Type :=
| Ok (a : A)
| Raise (e : exn).
Arguments Ok {A} a.
Arguments Raise {A} e.

Definition is_Ok {A} (r : result A) : Prop := exists a, r = Ok a.

(** ** The libraries the script calls *)

(** The second argument of [Image.save]. *)
Inductive format : Type := JPEG | PNG.

(** What can be at a path. *)
Inductive node : Type :=
| File (data : list byte)
| Dir.

(** Modes in which a Pillow image carries an alpha channel. *)
Definition has_alpha (m : string) : bool :=
  bool_decide (m ∈ ["RGBA"; "LA"; "PA"; "RGBa"; "La"]).

(** Pillow, as far as the script uses it.  [Image.open] is lazy, so the
    pixel data may only be decoded by [rotate]; this is why [rotate] and
    [crop] can raise.  [save] is [Image.save] on the file system: image,
    path, format, the [quality] keyword when it is passed, [optimize], and
    the files before; it gives the files after and returns or raises.
    Whether the destination can be written, which files the path names,
    and what a save that raises leaves behind are Pillow's and the
    operating system's business: the script does not decide any of it,
    and nothing below assumes it. *)
Class Pillow : Type := {
  Image : Type;
  size : Image -> Z * Z;
  mode : Image -> string;
  decode : list byte -> result Image;
  rotate : Image -> Z -> bool -> result Image;
  crop : Image -> Z * Z * Z * Z -> result Image;
  convert : Image -> string -> Image;
  save : Image -> string -> format -> option Z -> bool ->
         gmap string node -> gmap string node * result unit
}.

(** What the properties below use of Pillow's documented behaviour. *)
Class PillowLaws (P : Pillow) : Prop := {
  (** a quarter turn with [expand=True] swaps width and height *)
  rotate_quarter_size : forall im r,
    rotate im 90 true = Ok r -> size r = (snd (size im), fst (size im));
  (** the crop of a box has the box's extent, never less than 0 *)
  crop_size : forall im x0 y0 x1 y1 c,
    crop im (x0, y0, x1, y1) = Ok c ->
    size c = (Z.max 0 (x1 - x0), Z.max 0 (y1 - y0));
  (** a decoded image has pixels *)
  decode_size : forall data im,
    decode data = Ok im -> 0 < fst (size im) /\ 0 < snd (size im);
  (** an image whose pixels are loaded can be cropped to any ordered box
      inside it *)
  crop_loaded : forall im0 angle expand im x0 y0 x1 y1,
    rotate im0 angle expand = Ok im ->
    0 <= x0 <= x1 -> x1 <= fst (size im) ->
    0 <= y0 <= y1 -> y1 <= snd (size im) ->
    is_Ok (crop im (x0, y0, x1, y1));
  (** [convert] changes the colour model and nothing else *)
  convert_size : forall im m, size (convert im m) = size im;
  convert_mode : forall im m, mode (convert im m) = m;
  (** no [save] of an image without pixels returns *)
  save_empty : forall im p fmt q o fs,
    fst (size im) <= 0 \/ snd (size im) <= 0 ->
    exists e, snd (save im p fmt q o fs) = Raise e;
  (** the JPEG writer takes no image with an alpha channel *)
  save_jpeg_alpha : forall im p q o fs,
    has_alpha (mode im) = true ->
    exists e, snd (save im p JPEG q o fs) = Raise e
}.

(** The builtin [int], applied to a string. *)
Class Builtins : Type := {
  int : string -> result Z
}.

(** ** The world: files, console, and the file calls made so far

    [files] says what is at a path as the script spells it. *)

(** The calls that touch the file system; [I] is the type of images. *)
Inductive io_call (I : Type) : Type :=
| OpenCall (path : string)
| ExistsCall (path : string)
| SaveCall (path : string) (im : I) (fmt : format)
           (quality : option Z) (optimize : bool).
Arguments OpenCall {I} path.
Arguments ExistsCall {I} path.
Arguments SaveCall {I} path im fmt quality optimize.

Record world (I : Type) : Type := World {
  files : gmap string node;
  stdout : list string;
  io_log : list (io_call I)
}.
Arguments World {I} files stdout io_log.
Arguments files {I} w.
Arguments stdout {I} w.
Arguments io_log {I} w.

Section Program.

Context {P : Pillow} {B : Builtins}.

Definition log (c : io_call Image) (w : world Image) : world Image :=
  World (files w) (stdout w) (io_log w ++ [c]).

Definition with_files (fs : gmap string node) (w : world Image)
    : world Image :=
  World fs (stdout w) (io_log w).

(** A computation reads and changes the world and returns or raises; the
    world survives an exception. *)
Definition M (A : Type) : Type := world Image -> world Image * result A.

Definition ret {A} (a : A) : M A := fun w => (w, Ok a).

Definition raise {A} (e : exn) : M A := fun w => (w, Raise e).

Definition bind {A C} (c : M A) (k : A -> M C) : M C :=
  fun w =>
    match c w with
    | (w', Ok a) => k a w'
    | (w', Raise e) => (w', Raise e)
    end.

Definition lift {A} (r : result A) : M A := fun w => (w, r).

Notation "x <- c ;; k" := (bind c (fun x => k))
  (at level 100, c at next level, right associativity).
Notation "c ;;; k" := (bind c (fun _ => k))
  (at level 100, right associativity).

(** [print(s)] *)
Definition print (s : string) : M unit :=
  fun w => (World (files w) (stdout w ++ [s]) (io_log w), Ok tt).

(** [sys.exit(code)] *)
Definition sys_exit {A} (code : Z) : M A := raise (SystemExit code).

(** [Path(p).exists()] *)
Definition Path_exists (p : string) : M bool :=
  fun w =>
    let w := log (ExistsCall p) w in
    (w, Ok (bool_decide (is_Some (files w !! p)))).

(** [Image.open(p)] *)
Definition Image_open (p : string) : M Image :=
  fun w =>
    let w := log (OpenCall p) w in
    match files w !! p with
    | None => (w, Raise (FileNotFoundError p))
    | Some Dir => (w, Raise (IsADirectoryError p))
    | Some (File data) => (w, decode data)
    end.

(** [im.save(p, fmt, ...)]: the call is logged and the files become what
    Pillow's [save] makes of them. *)
Definition Image_save (im : Image) (p : string) (fmt : format)
    (quality : option Z) (optimize : bool) : M unit :=
  fun w =>
    let w := log (SaveCall p im fmt quality optimize) w in
    let '(fs, r) := save im p fmt quality optimize (files w) in
    (with_files fs w, r).

(** ** The script *)

Definition CROP_TOP : Z := 130.
Definition CROP_BOTTOM : Z := 42.

(** lines 34-75 *)
Definition process_screenshot (input_path output_path : string)
    (quality crop_top crop_bottom : Z) : M (Z * Z) :=
  img <- Image_open input_path ;;
  img_rotated <- lift (rotate img 90 true) ;;
  let '(width, height) := size img_rotated in
  let crop_box := (0, crop_top, width, height - crop_bottom) in
  cropped <- lift (crop img_rotated crop_box) ;;
  if bool_decide (PyStr.lower (Path.suffix output_path) ∈ [".jpg"; ".jpeg"])
  then
    let cropped :=
      if String.eqb (mode cropped) "RGBA" then convert cropped "RGB"
      else cropped in
    Image_save cropped output_path JPEG (Some quality) true ;;;
    ret (size cropped)
  else
    Image_save cropped output_path PNG None true ;;;
    ret (size cropped).

(** The module docstring, printed as the usage text. *)
Definition __doc__ : string := "
iPad Screenshot Processor for swift-ui-prototyper plugin.

Processes raw iPad simulator screenshots:
1. Rotates from portrait framebuffer to landscape
2. Crops status bar, camera housing, and home indicator
3. Saves as optimized PNG and JPEG

Usage:
    python process_ipad_screenshot.py <input.png> <output.jpg> [--quality 90]

    Or import as module:
    from process_ipad_screenshot import process_screenshot
    process_screenshot('/tmp/raw.png', '/tmp/clean.jpg')
".

(** [enumerate(l)], counting from [k]. *)
Fixpoint enumerate_from (k : nat) (l : list string) : list (nat * string) :=
  match l with
  | [] => []
  | x :: l' => (k, x) :: enumerate_from (S k) l'
  end.

Definition enumerate (l : list string) : list (nat * string) :=
  enumerate_from 0 l.

(** lines 88-90: the body of the [for] loop, run over what is left of
    [enumerate(sys.argv)]; [quality] is the value of the local variable
    when the loop gets there.  [int] may raise, which ends [main]. *)
Fixpoint quality_loop (argv : list string) (todo : list (nat * string))
    (quality : Z) : result Z :=
  match todo with
  | [] => Ok quality
  | (i, arg) :: todo' =>
      if String.eqb arg "--quality" && (i + 1 <? length argv)%nat then
        match int (argv !!! (i + 1)%nat) with
        | Ok q => quality_loop argv todo' q
        | Raise e => Raise e
        end
      else quality_loop argv todo' quality
  end.

(** lines 92-97: what [main] does once [quality] is known. *)
Definition main_run (input_path output_path : string) (quality : Z)
    : M unit :=
  found <- Path_exists input_path ;;
  if negb found then
    print ("Error: Input file not found: " +:+ input_path) ;;;
    sys_exit 1
  else
    dims <- process_screenshot input_path output_path quality
              CROP_TOP CROP_BOTTOM ;;
    let '(width, height) := dims in
    print ("Processed: " +:+ pretty width +:+ "x" +:+ pretty height
           +:+ " -> " +:+ output_path).

(** lines 78-97 *)
Definition main (argv : list string) : M unit :=
  if (length argv <? 3)%nat then
    print __doc__ ;;;
    sys_exit 1
  else
    let input_path := argv !!! 1%nat in
    let output_path := argv !!! 2%nat in
    quality <- lift (quality_loop argv (enumerate argv) 90) ;;
    main_run input_path output_path quality.

(** The process exit status of [if __name__ == '__main__': main()]:
    0 when [main] returns, the code of a [SystemExit], and 1 for any
    other uncaught exception (the interpreter prints its traceback). *)
Definition exit_status (r : result unit) : Z :=
  match r with
  | Ok _ => 0
  | Raise (SystemExit code) => code
  | Raise _ => 1
  end.

(** The test of line 67, as a function of the suffix. *)
Definition lossy_suffix (s : string) : bool :=
  bool_decide (PyStr.lower s ∈ [".jpg"; ".jpeg"]).

(** The arguments of the [save] call of lines 67-73 for a crop result. *)
Definition saved_image (output_path : string) (cropped : Image) : Image :=
  if lossy_suffix (Path.suffix output_path) then
    if String.eqb (mode cropped) "RGBA" then convert cropped "RGB"
    else cropped
  else cropped.

Definition saved_format (output_path : string) : format :=
  if lossy_suffix (Path.suffix output_path) then JPEG else PNG.

Definition saved_quality (output_path : string) (quality : Z) : option Z :=
  if lossy_suffix (Path.suffix output_path) then Some quality else None.

(** [cropped] is the value of the local variable after line 63 when
    [process_screenshot] is called on [input_path] with these margins. *)
Definition crops_to (w : world Image) (input_path : string)
    (crop_top crop_bottom : Z) (cropped : Image) : Prop :=
  exists data img img_rotated,
    files w !! input_path = Some (File data) /\
    decode data = Ok img /\
    rotate img 90 true = Ok img_rotated /\
    crop img_rotated
      (0, crop_top, fst (size img_rotated),
       snd (size img_rotated) - crop_bottom) = Ok cropped.

(** The [SaveCall]s in a log, oldest first. *)
Definition is_save (c : io_call Image) : bool :=
  match c with
  | SaveCall _ _ _ _ _ => true
  | _ => false
  end.

Definition save_calls (l : list (io_call Image))
    : list (io_call Image) :=
  List.filter is_save l.

End Program.


(** ** A reference instance

    A small executable instance, to run the script on and to show that the
    laws can be met; no theorem about the script depends on it.  Images
    are reduced to what the script can observe of them, their size and
    mode.  A file is the mode tag, then width and height as two bytes
    each, big-endian; whatever follows is pixel data and is not looked at. *)

Module Ref.

Record image : Type := Img {
  img_size : Z * Z;
  img_mode : string
}.

Definition Z_of_byte (b : byte) : Z := Z.of_N (Byte.to_N b).

Definition byte_of_Z (z : Z) : byte :=
  match Byte.of_N (Z.to_N (z mod 256)) with
  | Some b => b
  | None => x00
  end.

Definition mode_of_tag (b : byte) : option string :=
  match Z_of_byte b with
  | 0 => Some "L"
  | 1 => Some "LA"
  | 2 => Some "RGB"
  | 3 => Some "RGBA"
  | 4 => Some "P"
  | _ => None
  end.

Definition decode (data : list byte) : result image :=
  match data with
  | tag :: w1 :: w0 :: h1 :: h0 :: _ =>
      let w := 256 * Z_of_byte w1 + Z_of_byte w0 in
      let h := 256 * Z_of_byte h1 + Z_of_byte h0 in
      match mode_of_tag tag with
      | Some m =>
          if (0 <? w) && (0 <? h) then Ok (Img (w, h) m)
          else Raise UnidentifiedImageError
      | None => Raise UnidentifiedImageError
      end
  | _ => Raise UnidentifiedImageError
  end.

(** Right angles only: a quarter turn swaps the sides when [expand] is
    set (or the image is square), a half or full turn keeps them. *)
Definition rotate (im : image) (angle : Z) (expand : bool) : result image :=
  let '(w, h) := img_size im in
  let a := angle mod 360 in
  if (a =? 90) || (a =? 270) then
    if expand || (w =? h) then Ok (Img (h, w) (img_mode im)) else Ok im
  else if (a =? 0) || (a =? 180) then Ok im
  else if expand then Raise (ValueError "angle outside the size model")
  else Ok im.

Definition crop (im : image) (box : Z * Z * Z * Z) : result image :=
  let '(x0, y0, x1, y1) := box in
  if x1 <? x0 then Raise (ValueError "Coordinate 'right' is less than 'left'")
  else if y1 <? y0 then
    Raise (ValueError "Coordinate 'lower' is less than 'upper'")
  else Ok (Img (x1 - x0, y1 - y0) (img_mode im)).

Definition convert (im : image) (m : string) : image := Img (img_size im) m.

Definition dims_bytes (sz : Z * Z) : list byte :=
  [byte_of_Z (fst sz / 256); byte_of_Z (fst sz);
   byte_of_Z (snd sz / 256); byte_of_Z (snd sz)].

Definition encode (im : image) (fmt : format) (quality : option Z)
    (optimize : bool) : result (list byte) :=
  let '(w, h) := img_size im in
  if (w <=? 0) || (h <=? 0) then
    match fmt with
    | JPEG => Raise (ValueError "cannot write empty image as JPEG")
    | PNG => Raise (ValueError "cannot write empty image as PNG")
    end
  else
    match fmt with
    | JPEG =>
        if bool_decide (img_mode im ∈ ["1"; "L"; "RGB"; "RGBX"; "CMYK"; "YCbCr"])
        then
          let q := match quality with
                   | Some q => Z.max 1 (Z.min 100 q)
                   | None => 75
                   end in
          Ok ([xff; xd8] ++ dims_bytes (w, h) ++ [byte_of_Z q])
        else Raise (OSError ("cannot write mode " +:+ img_mode im +:+ " as JPEG"))
    | PNG =>
        if bool_decide (img_mode im ∈ ["1"; "L"; "LA"; "I"; "P"; "RGB"; "RGBA"])
        then
          Ok ([x89; x50; x4e; x47] ++ dims_bytes (w, h)
              ++ [byte_of_Z (Z.of_nat (String.length (img_mode im)))])
        else Raise (OSError ("cannot write mode " +:+ img_mode im +:+ " as PNG"))
    end.

(** A flat file system: a directory cannot be written, any other path
    takes the codec's output, and a save whose codec raises changes
    nothing. *)
Definition save (im : image) (p : string) (fmt : format)
    (quality : option Z) (optimize : bool) (fs : gmap string node)
    : gmap string node * result unit :=
  match fs !! p with
  | Some Dir => (fs, Raise (IsADirectoryError p))
  | _ =>
      match encode im fmt quality optimize with
      | Ok data => (<[p := File data]> fs, Ok tt)
      | Raise e => (fs, Raise e)
      end
  end.

(** [int(s)] for plain decimal literals: an optional sign and digits. *)
Definition digit_of (c : ascii) : option Z :=
  let n := nat_of_ascii c in
  if ((48 <=? n) && (n <=? 57))%nat then Some (Z.of_nat n - 48) else None.

Fixpoint digits (l : list ascii) (acc : Z) : option Z :=
  match l with
  | [] => Some acc
  | c :: l' =>
      match digit_of c with
      | Some d => digits l' (10 * acc + d)
      | None => None
      end
  end.

Definition int (s : string) : result Z :=
  let bad := Raise (ValueError
    ("invalid literal for int() with base 10: '" +:+ s +:+ "'")) in
  let unsigned (l : list ascii) (sign : Z) :=
    match l with
    | [] => bad
    | _ :: _ => match digits l 0 with
                | Some n => Ok (sign * n)
                | None => bad
                end
    end in
  match PyStr.chars s with
  | "-"%char :: l => unsigned l (-1)
  | "+"%char :: l => unsigned l 1
  | l => unsigned l 1
  end.

End Ref.

#[export] Instance RefPillow : Pillow := {|
  Image := Ref.image;
  size := Ref.img_size;
  mode := Ref.img_mode;
  decode := Ref.decode;
  rotate := Ref.rotate;
  crop := Ref.crop;
  convert := Ref.convert;
  save := Ref.save
|}.

#[export] Instance RefBuiltins : Builtins := {| int := Ref.int |}.

(** A 2048x2732 portrait framebuffer in mode [m] (tag [t]). *)
Definition raw_ipad (t : byte) : list byte := [t; x08; x00; x0a; xac; x00].

Definition empty_world : world (@Image RefPillow) := World ∅ [] [].

Definition world_with (fs : list (string * node)) : world (@Image RefPillow) :=
  World (list_to_map fs) [] [].

(** A 2048x2732 RGBA capture, and the same in mode LA. *)
Definition shot_rgba : world (@Image RefPillow) :=
  world_with [("/tmp/raw.png", File (raw_ipad x03))].

Definition shot_la : world (@Image RefPillow) :=
  world_with [("/tmp/raw.png", File (raw_ipad x01))].

(** A file that is there and is no image. *)
Definition shot_corrupt : world (@Image RefPillow) :=
  world_with [("/tmp/raw.png", File [x00])].

(** The crop of the capture with the default margins, in mode [m]. *)
Definition cropped_ipad (m : string) : Ref.image := Ref.Img (2732, 1876) m.

(** Command lines. *)
Definition argv_quality_80 : list string :=
  ["process_ipad_screenshot.py"; "/tmp/raw.png"; "/tmp/clean.jpg";
   "--quality"; "80"].

Definition argv_flag_second : list string :=
  ["process_ipad_screenshot.py"; "/tmp/raw.png"; "--quality"; "90"].

Definition argv_flag_last : list string :=
  ["process_ipad_screenshot.py"; "/tmp/raw.png"; "/tmp/clean.jpg";
   "--quality"].

Definition argv_missing_input : list string :=
  ["process_ipad_screenshot.py"; "missing.png"; "out.jpg"].

Definition argv_missing_input_bad_quality : list string :=
  ["process_ipad_screenshot.py"; "missing.png"; "out.jpg";
   "--quality"; "abc"].

(** Closing goals on concrete inputs. *)
Ltac by_evaluation := vm_compute; try reflexivity; try discriminate; auto.

Ltac decide_it := refine (bool_decide_unpack _ _); vm_compute; exact I.


(** * Properties *)

Example suffix_plain : Path.suffix "/tmp/clean.jpg" = ".jpg".
Proof. reflexivity. Qed.
Example suffix_upper : Path.suffix "shots/Home.PNG" = ".PNG".
Proof. reflexivity. Qed.
Example suffix_last_only : Path.suffix "a.tar.jpeg" = ".jpeg".
Proof. reflexivity. Qed.
Example suffix_dotfile : Path.suffix "out/.jpg" = "".
Proof. reflexivity. Qed.
Example suffix_trailing_dot : Path.suffix "out/shot." = "".
Proof. reflexivity. Qed.
Example suffix_dir_dot : Path.suffix "a.jpg/plain" = "".
Proof. reflexivity. Qed.
Example suffix_trailing_slash : Path.suffix "a/b.JPG/" = ".JPG".
Proof. reflexivity. Qed.
Example lower_mixed : PyStr.lower ".JpEg" = ".jpeg".
Proof. reflexivity. Qed.

(** ** Stepping through [process_screenshot] *)

Section Run.

Context {P : Pillow} {B : Builtins}.

Implicit Types (w : world Image) (im img r c : Image).

Lemma files_log (k : io_call Image) w : files (log k w) = files w.
Proof. reflexivity. Qed.

Lemma io_log_log (k : io_call Image) w : io_log (log k w) = io_log w ++ [k].
Proof. reflexivity. Qed.

Lemma Image_open_file w p data :
  files w !! p = Some (File data) ->
  Image_open p w = (log (OpenCall p) w, decode data).
Proof. intros Hf. unfold Image_open. rewrite files_log, Hf. reflexivity. Qed.

(** Every way to leave before the [save] call. *)
Lemma process_open_raises w inp out q t b e :
  Image_open inp w = (log (OpenCall inp) w, Raise e) ->
  process_screenshot inp out q t b w = (log (OpenCall inp) w, Raise e).
Proof. intros H. unfold process_screenshot, bind. rewrite H. reflexivity. Qed.

Lemma process_rotate_raises w inp out q t b img e :
  Image_open inp w = (log (OpenCall inp) w, Ok img) ->
  rotate img 90 true = Raise e ->
  process_screenshot inp out q t b w = (log (OpenCall inp) w, Raise e).
Proof.
  intros Ho Hr. unfold process_screenshot, bind, lift.
  rewrite Ho, Hr. reflexivity.
Qed.

Lemma process_crop_raises w inp out q t b img r e :
  Image_open inp w = (log (OpenCall inp) w, Ok img) ->
  rotate img 90 true = Ok r ->
  crop r (0, t, fst (size r), snd (size r) - b) = Raise e ->
  process_screenshot inp out q t b w = (log (OpenCall inp) w, Raise e).
Proof.
  intros Ho Hr Hc. unfold process_screenshot, bind, lift.
  rewrite Ho, Hr. destruct (size r) as [width height]; simpl in *.
  rewrite Hc. reflexivity.
Qed.

(** Once the crop is there, what is left is one [save] and the return. *)
Lemma process_reaches_save w inp out q t b img r c :
  Image_open inp w = (log (OpenCall inp) w, Ok img) ->
  rotate img 90 true = Ok r ->
  crop r (0, t, fst (size r), snd (size r) - b) = Ok c ->
  process_screenshot inp out q t b w =
  bind (Image_save (saved_image out c) out (saved_format out)
          (saved_quality out q) true)
       (fun _ => ret (size (saved_image out c)))
       (log (OpenCall inp) w).
Proof.
  intros Ho Hr Hc. unfold process_screenshot.
  unfold bind at 1. rewrite Ho.
  unfold bind at 1. unfold lift at 1. rewrite Hr.
  destruct (size r) as [width height]; simpl in Hc.
  unfold bind at 1. unfold lift at 1. rewrite Hc.
  unfold saved_image, saved_format, saved_quality, lossy_suffix.
  destruct (bool_decide _); reflexivity.
Qed.

End Run.

Section Save.

Context {P : Pillow} {B : Builtins}.

Implicit Types (w : world Image) (im img r c : Image).

Lemma Image_save_log im p fmt qq o w :
  io_log (fst (Image_save im p fmt qq o w)) =
  io_log w ++ [SaveCall p im fmt qq o].
Proof.
  unfold Image_save. rewrite files_log.
  destruct (save im p fmt qq o (files w)) as [fs r]. reflexivity.
Qed.

Lemma Image_save_stdout im p fmt qq o w :
  stdout (fst (Image_save im p fmt qq o w)) = stdout w.
Proof.
  unfold Image_save. rewrite files_log.
  destruct (save im p fmt qq o (files w)) as [fs r]. reflexivity.
Qed.

(** The wrapper returns or raises as Pillow's [save] does, and the files
    are the ones that [save] left. *)
Lemma Image_save_result im p fmt qq o w :
  snd (Image_save im p fmt qq o w) = snd (save im p fmt qq o (files w)).
Proof.
  unfold Image_save. rewrite files_log.
  destruct (save im p fmt qq o (files w)) as [fs r]. reflexivity.
Qed.

Lemma Image_save_files im p fmt qq o w :
  files (fst (Image_save im p fmt qq o w))
  = fst (save im p fmt qq o (files w)).
Proof.
  unfold Image_save. rewrite files_log.
  destruct (save im p fmt qq o (files w)) as [fs r]. reflexivity.
Qed.

Lemma Image_save_ok im p fmt qq o w fs :
  save im p fmt qq o (files w) = (fs, Ok tt) ->
  Image_save im p fmt qq o w =
  (with_files fs (log (SaveCall p im fmt qq o) w), Ok tt).
Proof.
  intros Hs. unfold Image_save. rewrite files_log, Hs. reflexivity.
Qed.

Lemma bind_ret_world {A C} (m : M A) (x : C) w :
  fst (bind m (fun _ => ret x) w) = fst (m w).
Proof. unfold bind, ret. destruct (m w) as [w' [a|e]]; reflexivity. Qed.

Lemma bind_ret_raises {A C} (m : M A) (x : C) w e :
  snd (m w) = Raise e -> snd (bind m (fun _ => ret x) w) = Raise e.
Proof.
  unfold bind, ret. destruct (m w) as [w' [a|e']]; simpl; congruence.
Qed.

Lemma crops_to_save w inp out q t b c :
  crops_to w inp t b c ->
  process_screenshot inp out q t b w =
  bind (Image_save (saved_image out c) out (saved_format out)
          (saved_quality out q) true)
       (fun _ => ret (size (saved_image out c)))
       (log (OpenCall inp) w).
Proof.
  intros (data & img & r & Hf & Hd & Hr & Hc).
  eapply process_reaches_save; eauto.
  rewrite (Image_open_file _ _ _ Hf), Hd. reflexivity.
Qed.

Lemma crops_to_log w inp out q t b c :
  crops_to w inp t b c ->
  io_log (fst (process_screenshot inp out q t b w)) =
  io_log w ++ [OpenCall inp;
               SaveCall out (saved_image out c) (saved_format out)
                 (saved_quality out q) true].
Proof.
  intros Hc. rewrite (crops_to_save _ _ _ _ _ _ _ Hc).
  rewrite bind_ret_world, Image_save_log, io_log_log.
  rewrite <- app_assoc. reflexivity.
Qed.

End Save.

(** ** [process_screenshot] *)

Section ProcessScreenshot.

Context {P : Pillow} {B : Builtins}.

Implicit Types (w : world Image) (im img r c : Image).

(** C1.  A decodable W x H input with margins [0 <= t], [0 <= b],
    [t + b < W] is rotated to H x W and cropped to H x (W - t - b); the
    call is then one [save] of an image of exactly that size followed by
    the return of (H, W - t - b): it returns that pair when the [save]
    returns, with the files as the [save] left them, and raises the
    exception of the [save] when that raises; encoding cannot change the
    pair. *)
Theorem process_screenshot_dimensions `{!PillowLaws P}
    w inp out q t b data img r W H :
  files w !! inp = Some (File data) ->
  decode data = Ok img ->
  size img = (W, H) ->
  rotate img 90 true = Ok r ->
  0 <= t -> 0 <= b -> t + b < W ->
  size r = (H, W) /\
  exists c,
    crop r (0, t, H, W - b) = Ok c /\
    size c = (H, W - t - b) /\
    size (saved_image out c) = (H, W - t - b) /\
    process_screenshot inp out q t b w =
      bind (Image_save (saved_image out c) out (saved_format out)
              (saved_quality out q) true)
           (fun _ => ret (H, W - t - b))
           (log (OpenCall inp) w) /\
    (forall fs,
       save (saved_image out c) out (saved_format out) (saved_quality out q)
         true (files w) = (fs, Ok tt) ->
       process_screenshot inp out q t b w =
         (with_files fs
            (log (SaveCall out (saved_image out c) (saved_format out)
                    (saved_quality out q) true)
               (log (OpenCall inp) w)),
          Ok (H, W - t - b))) /\
    (forall e,
       snd (save (saved_image out c) out (saved_format out)
              (saved_quality out q) true (files w)) = Raise e ->
       snd (process_screenshot inp out q t b w) = Raise e).
Proof.
  intros Hf Hd Hs Hr Ht Hb Htb.
  assert (Hsr : size r = (H, W)).
  { rewrite (rotate_quarter_size _ _ Hr), Hs. reflexivity. }
  destruct (decode_size _ _ Hd) as [HW HH]. rewrite Hs in HW, HH; simpl in *.
  split; [exact Hsr|].
  destruct (crop_loaded img 90 true r 0 t H (W - b) Hr) as [c Hc];
    rewrite ?Hsr; simpl; try lia.
  assert (Hsc : size c = (H, W - t - b)).
  { rewrite (crop_size _ _ _ _ _ _ Hc). f_equal; lia. }
  assert (Hsi : size (saved_image out c) = (H, W - t - b)).
  { unfold saved_image.
    destruct (lossy_suffix _); [|exact Hsc].
    destruct (String.eqb _ _); [|exact Hsc].
    rewrite convert_size. exact Hsc. }
  assert (Hrun : crops_to w inp t b c).
  { exists data, img, r. rewrite Hsr. simpl. auto. }
  exists c. repeat split; try assumption.
  - rewrite (crops_to_save _ _ out q _ _ _ Hrun), Hsi. reflexivity.
  - intros fs Hsave.
    rewrite (crops_to_save _ _ out q _ _ _ Hrun).
    unfold bind. rewrite (Image_save_ok _ _ _ _ _ _ fs).
    + unfold ret. rewrite Hsi. reflexivity.
    + rewrite files_log. exact Hsave.
  - intros e Hsave.
    rewrite (crops_to_save _ _ out q _ _ _ Hrun).
    apply bind_ret_raises. rewrite Image_save_result, files_log.
    exact Hsave.
Qed.

(** C3, as the code has it.  On the lossy path a cropped image in mode
    RGBA goes to the JPEG writer converted to RGB, which has no alpha
    channel; a cropped image in any other mode goes there as it is, and
    when that mode carries alpha the writer refuses it and the call
    raises.  So a call that returns has saved an image without alpha:
    lossy output never has an alpha channel, whatever the input's mode. *)
Theorem lossy_output_has_no_alpha `{!PillowLaws P} w inp out q t b c :
  crops_to w inp t b c ->
  lossy_suffix (Path.suffix out) = true ->
  let run := process_screenshot inp out q t b w in
  (mode c = "RGBA" ->
   io_log (fst run) =
     io_log w ++ [OpenCall inp;
                  SaveCall out (convert c "RGB") JPEG (Some q) true] /\
   has_alpha (mode (convert c "RGB")) = false) /\
  (mode c <> "RGBA" ->
   io_log (fst run) =
     io_log w ++ [OpenCall inp; SaveCall out c JPEG (Some q) true]) /\
  (mode c <> "RGBA" -> has_alpha (mode c) = true ->
   exists e, snd run = Raise e) /\
  (forall dims, snd run = Ok dims ->
   has_alpha (mode (saved_image out c)) = false).
Proof.
  intros Hc Hl run.
  assert (Hlog := crops_to_log _ _ out q _ _ _ Hc).
  assert (Hrun := crops_to_save _ _ out q _ _ _ Hc).
  fold run in Hlog, Hrun.
  assert (Hrefuse : has_alpha (mode (saved_image out c)) = true ->
                    exists e, snd run = Raise e).
  { intros Ha.
    destruct (save_jpeg_alpha (saved_image out c) out (saved_quality out q)
                true (files (log (OpenCall inp) w)) Ha) as [e He].
    exists e. rewrite Hrun. apply bind_ret_raises.
    rewrite Image_save_result. unfold saved_format. rewrite Hl. exact He. }
  unfold saved_image, saved_format, saved_quality in Hlog, Hrefuse.
  rewrite Hl in Hlog, Hrefuse.
  split; [|split; [|split]].
  - intros Hm. split.
    + rewrite Hlog, Hm. reflexivity.
    + rewrite convert_mode. reflexivity.
  - intros Hm. apply String.eqb_neq in Hm. rewrite Hlog, Hm. reflexivity.
  - intros Hm Ha. apply Hrefuse.
    apply String.eqb_neq in Hm. rewrite Hm. exact Ha.
  - intros dims Hret.
    unfold saved_image. rewrite Hl.
    apply not_true_is_false. intros Ha.
    destruct (Hrefuse Ha) as [e He]. congruence.
Qed.

(** C4.  With [crop_top + crop_bottom] at least the rotated height the
    box goes to [crop] as it is.  The call raises: either [crop] raised,
    and that exception leaves the call before any [save]; or [crop]
    returned an image without rows, the call is the [save] of that
    image, and the exception is the one Pillow's [save] raised.  Either
    way the call does not return. *)
Theorem degenerate_crop_propagates `{!PillowLaws P}
    w inp out q t b data img r :
  files w !! inp = Some (File data) ->
  decode data = Ok img ->
  rotate img 90 true = Ok r ->
  snd (size r) <= t + b ->
  let box := (0, t, fst (size r), snd (size r) - b) in
  let run := process_screenshot inp out q t b w in
  exists e, snd run = Raise e /\
    ((crop r box = Raise e /\ run = (log (OpenCall inp) w, Raise e)) \/
     (exists c,
        crop r box = Ok c /\ snd (size c) = 0 /\
        run = bind (Image_save (saved_image out c) out (saved_format out)
                      (saved_quality out q) true)
                   (fun _ => ret (size (saved_image out c)))
                   (log (OpenCall inp) w) /\
        snd (save (saved_image out c) out (saved_format out)
               (saved_quality out q) true (files w)) = Raise e)).
Proof.
  intros Hf Hd Hr Hdeg box run.
  assert (Ho : Image_open inp w = (log (OpenCall inp) w, Ok img)).
  { rewrite (Image_open_file _ _ _ Hf), Hd. reflexivity. }
  destruct (crop r box) as [c|e] eqn:Hc.
  - assert (Hrun : crops_to w inp t b c) by (exists data, img, r; auto).
    assert (Hh : snd (size c) = 0).
    { unfold box in Hc. rewrite (crop_size _ _ _ _ _ _ Hc). simpl. lia. }
    assert (Hsi : size (saved_image out c) = size c).
    { unfold saved_image.
      destruct (lossy_suffix _); [|reflexivity].
      destruct (String.eqb _ _); [|reflexivity]. apply convert_size. }
    destruct (save_empty (saved_image out c) out (saved_format out)
                (saved_quality out q) true (files w)) as [e He].
    { right. rewrite Hsi, Hh. lia. }
    exists e.
    assert (Hrun' := crops_to_save _ _ out q _ _ _ Hrun).
    fold run in Hrun'.
    split.
    { rewrite Hrun'. apply bind_ret_raises.
      rewrite Image_save_result, files_log. exact He. }
    right. exists c. repeat split; assumption.
  - exists e.
    assert (Hrun : run = (log (OpenCall inp) w, Raise e)).
    { unfold run. eapply process_crop_raises; eauto. }
    rewrite Hrun. simpl. auto.
Qed.

(** C5.  With a lossless output path the call does not depend on
    [quality]: the same result and the same world, so the same file. *)
Theorem lossless_ignores_quality w inp out q1 q2 t b :
  lossy_suffix (Path.suffix out) = false ->
  process_screenshot inp out q1 t b w = process_screenshot inp out q2 t b w.
Proof.
  intros Hl. unfold lossy_suffix in Hl.
  unfold process_screenshot, bind, lift.
  destruct (Image_open inp w) as [w1 [img|e]]; [|reflexivity].
  destruct (rotate img 90 true) as [r|e]; [|reflexivity].
  destruct (size r) as [width height].
  destruct (crop r _) as [c|e]; [|reflexivity].
  rewrite Hl. reflexivity.
Qed.

(** C6.  An input file that does not decode makes the call raise the
    decoder's exception with the files as they were and no [save] made;
    the same holds when [rotate] or [crop] raises. *)
Theorem failure_before_save_writes_nothing w inp out q t b data :
  files w !! inp = Some (File data) ->
  let run := process_screenshot inp out q t b w in
  (forall e, decode data = Raise e ->
     run = (log (OpenCall inp) w, Raise e)) /\
  (forall img e, decode data = Ok img -> rotate img 90 true = Raise e ->
     run = (log (OpenCall inp) w, Raise e)) /\
  (forall img r e, decode data = Ok img -> rotate img 90 true = Ok r ->
     crop r (0, t, fst (size r), snd (size r) - b) = Raise e ->
     run = (log (OpenCall inp) w, Raise e)) /\
  files (log (OpenCall inp) w) = files w /\
  save_calls (io_log (log (OpenCall inp) w)) = save_calls (io_log w).
Proof.
  intros Hf run. unfold run.
  pose proof (Image_open_file _ _ _ Hf) as Ho.
  repeat split.
  - intros e Hd. apply process_open_raises. rewrite Ho, Hd. reflexivity.
  - intros img e Hd Hr. eapply process_rotate_raises; eauto.
    rewrite Ho, Hd. reflexivity.
  - intros img r e Hd Hr Hc. eapply process_crop_raises; eauto.
    rewrite Ho, Hd. reflexivity.
  - rewrite io_log_log. unfold save_calls.
    rewrite List.filter_app. simpl. apply app_nil_r.
Qed.

(** C10.  On the lossy path the image is converted exactly when the
    cropped image's mode is the string RGBA: in any other mode, LA and P
    included, the cropped image itself is what the JPEG encoder gets. *)
Theorem convert_only_for_exact_RGBA w inp out q t b c :
  crops_to w inp t b c ->
  lossy_suffix (Path.suffix out) = true ->
  (mode c <> "RGBA" ->
   io_log (fst (process_screenshot inp out q t b w)) =
     io_log w ++ [OpenCall inp; SaveCall out c JPEG (Some q) true]) /\
  (mode c = "RGBA" ->
   io_log (fst (process_screenshot inp out q t b w)) =
     io_log w ++ [OpenCall inp;
                  SaveCall out (convert c "RGB") JPEG (Some q) true]).
Proof.
  intros Hc Hl.
  rewrite (crops_to_log _ _ out q _ _ _ Hc).
  unfold saved_image, saved_format, saved_quality. rewrite Hl.
  split; intros Hm.
  - apply String.eqb_neq in Hm. rewrite Hm. reflexivity.
  - rewrite Hm. reflexivity.
Qed.

End ProcessScreenshot.

(** ** Paths and suffixes *)

Section Suffix.

Implicit Types (l n piece : list ascii) (sep : ascii).

Lemma chars_app a b : PyStr.chars (a +:+ b) = PyStr.chars a ++ PyStr.chars b.
Proof. induction a as [|x a IH]; simpl; [reflexivity|]. now rewrite IH. Qed.

Lemma of_chars_chars s : PyStr.of_chars (PyStr.chars s) = s.
Proof. apply string_of_list_ascii_of_string. Qed.

Lemma split_not_nil sep l : PyStr.split sep l <> [].
Proof.
  destruct l as [|x l]; simpl; [discriminate|].
  destruct (Ascii.eqb x sep); [discriminate|].
  destruct (PyStr.split sep l); discriminate.
Qed.

Lemma split_no_sep sep l : sep ∉ l -> PyStr.split sep l = [l].
Proof.
  induction l as [|x l IH]; intros Hn; simpl; [reflexivity|].
  apply not_elem_of_cons in Hn as [Hx Hl].
  destruct (Ascii.eqb_spec x sep) as [->|_]; [congruence|].
  now rewrite (IH Hl).
Qed.

Lemma split_app_sep sep l n :
  PyStr.split sep (l ++ sep :: n) = PyStr.split sep l ++ PyStr.split sep n.
Proof.
  induction l as [|x l IH]; simpl.
  - now rewrite Ascii.eqb_refl.
  - destruct (Ascii.eqb x sep); [now rewrite IH|].
    rewrite IH.
    pose proof (split_not_nil sep l) as Hne.
    destruct (PyStr.split sep l) as [|piece pieces]; [congruence|].
    reflexivity.
Qed.

Lemma rfind_opt_absent sep l : sep ∉ l -> PyStr.rfind_opt sep l = None.
Proof.
  induction l as [|x l IH]; intros Hn; simpl; [reflexivity|].
  apply not_elem_of_cons in Hn as [Hx Hl]. rewrite (IH Hl).
  destruct (Ascii.eqb_spec x sep); congruence.
Qed.

Lemma rfind_opt_last sep l n :
  sep ∉ n -> PyStr.rfind_opt sep (l ++ sep :: n) = Some (length l).
Proof.
  intros Hn. induction l as [|x l IH]; simpl.
  - now rewrite (rfind_opt_absent _ _ Hn), Ascii.eqb_refl.
  - now rewrite IH.
Qed.

(** The name of a path that ends in a component without [/]. *)
Lemma name_chars_last dir n :
  (dir = "" \/ exists d, dir = d +:+ "/") ->
  "/"%char ∉ n -> (1 < length n)%nat ->
  Path.name_chars (dir +:+ PyStr.of_chars n) = n.
Proof.
  intros Hdir Hn Hlen. unfold Path.name_chars, Path.parts.
  assert (Hpart : Path.is_part n = true).
  { unfold Path.is_part.
    destruct n as [|a [|a' n']]; simpl in Hlen; try lia.
    rewrite !bool_decide_eq_false_2 by congruence. reflexivity. }
  rewrite chars_app. unfold PyStr.chars at 2, PyStr.of_chars.
  rewrite list_ascii_of_string_of_list_ascii.
  destruct Hdir as [->|[d ->]].
  - simpl. rewrite (split_no_sep _ _ Hn).
    rewrite filter_cons_True by exact Hpart. reflexivity.
  - rewrite chars_app. simpl. rewrite <- app_assoc. simpl.
    rewrite split_app_sep, (split_no_sep _ _ Hn), filter_app.
    rewrite filter_cons_True by exact Hpart. rewrite filter_nil.
    apply List.last_last.
Qed.

(** What [Path.suffix] computes is the trailing extension: for a path
    whose last component is [stem.ext], with a non-empty stem and an
    extension free of dots, the suffix is [.ext]. *)
Lemma suffix_of_extension dir stem ext :
  (dir = "" \/ exists d, dir = d +:+ "/") ->
  stem <> "" -> "/"%char ∉ PyStr.chars stem ->
  ext <> "" -> "/"%char ∉ PyStr.chars ext -> "."%char ∉ PyStr.chars ext ->
  Path.suffix (dir +:+ stem +:+ "." +:+ ext) = "." +:+ ext.
Proof.
  intros Hdir Hstem Hs1 Hext He1 He2.
  set (n := PyStr.chars stem ++ "."%char :: PyStr.chars ext).
  assert (Hn : stem +:+ "." +:+ ext = PyStr.of_chars n).
  { unfold n. rewrite <- (of_chars_chars (stem +:+ "." +:+ ext)).
    now rewrite chars_app. }
  assert (Hls : (0 < length (PyStr.chars stem))%nat).
  { destruct stem; [congruence|simpl; lia]. }
  assert (Hle : (0 < length (PyStr.chars ext))%nat).
  { destruct ext; [congruence|simpl; lia]. }
  unfold Path.suffix. rewrite Hn, name_chars_last; try assumption.
  - unfold PyStr.rfind, n. rewrite (rfind_opt_last _ _ _ He2).
    rewrite length_app. simpl length.
    replace ((0 <? _) && _) with true.
    + rewrite Nat2Z.id, drop_app_length. simpl. now rewrite of_chars_chars.
    + symmetry. apply andb_true_iff. split; apply Z.ltb_lt; lia.
  - unfold n. rewrite not_elem_of_app, not_elem_of_cons.
    repeat split; [assumption|discriminate|assumption].
  - unfold n. rewrite length_app. simpl. lia.
Qed.

Lemma lossy_suffix_spec s :
  lossy_suffix s = true <-> PyStr.lower s = ".jpg" \/ PyStr.lower s = ".jpeg".
Proof.
  unfold lossy_suffix. rewrite bool_decide_eq_true.
  rewrite !elem_of_cons, elem_of_nil. tauto.
Qed.

End Suffix.

Section Format.

Context {P : Pillow} {B : Builtins}.

Implicit Types (w : world Image) (im img r c : Image).

(** A call makes one [open] and at most one [save], and the [save] is
    there exactly when the crop was reached. *)
Lemma process_log_cases w inp out q t b :
  io_log (fst (process_screenshot inp out q t b w))
    = io_log w ++ [OpenCall inp] \/
  exists c, crops_to w inp t b c /\
    io_log (fst (process_screenshot inp out q t b w))
      = io_log w ++ [OpenCall inp;
                     SaveCall out (saved_image out c) (saved_format out)
                       (saved_quality out q) true].
Proof.
  destruct (files w !! inp) as [[data|]|] eqn:Hf.
  - pose proof (Image_open_file _ _ _ Hf) as Ho.
    destruct (decode data) as [img|e] eqn:Hd.
    + destruct (rotate img 90 true) as [r|e] eqn:Hr.
      * destruct (crop r (0, t, fst (size r), snd (size r) - b))
          as [c|e] eqn:Hc.
        -- right. exists c.
           assert (Hrun : crops_to w inp t b c)
             by (exists data, img, r; auto).
           split; [exact Hrun|]. now apply crops_to_log.
        -- left. erewrite process_crop_raises; eauto.
      * left. erewrite process_rotate_raises; eauto.
    + left. erewrite process_open_raises; eauto.
  - left. unfold process_screenshot, bind, Image_open.
    rewrite files_log, Hf. reflexivity.
  - left. unfold process_screenshot, bind, Image_open.
    rewrite files_log, Hf. reflexivity.
Qed.

(** C2.  Whatever the input, the only [save] a call makes writes
    [output_path] in the format given by the suffix of that path alone:
    JPEG when the lower-cased suffix is [.jpg] or [.jpeg], PNG otherwise;
    and the call does make that [save] whenever the crop is reached.
    The suffix is the trailing extension of the last path component, so
    upper-case [.PNG] is lossless and [.JPG], [.Jpeg] are lossy. *)
Theorem format_from_extension w inp out q t b :
  let run_log := io_log (fst (process_screenshot inp out q t b w)) in
  let fmt := if lossy_suffix (Path.suffix out) then JPEG else PNG in
  (run_log = io_log w ++ [OpenCall inp] \/
   exists im qq,
     run_log = io_log w ++ [OpenCall inp; SaveCall out im fmt qq true]) /\
  (forall c, crops_to w inp t b c ->
     exists im qq,
       run_log = io_log w ++ [OpenCall inp; SaveCall out im fmt qq true]) /\
  (lossy_suffix (Path.suffix out) = true <->
     PyStr.lower (Path.suffix out) = ".jpg" \/
     PyStr.lower (Path.suffix out) = ".jpeg") /\
  (forall s s', PyStr.lower s = PyStr.lower s' ->
     lossy_suffix s = lossy_suffix s') /\
  (forall dir stem ext,
     (dir = "" \/ exists d, dir = d +:+ "/") ->
     stem <> "" -> "/"%char ∉ PyStr.chars stem ->
     ext <> "" -> "/"%char ∉ PyStr.chars ext ->
     "."%char ∉ PyStr.chars ext ->
     Path.suffix (dir +:+ stem +:+ "." +:+ ext) = "." +:+ ext) /\
  lossy_suffix ".PNG" = false /\
  lossy_suffix ".JPG" = true /\
  lossy_suffix ".Jpeg" = true.
Proof.
  intros run_log fmt. repeat split.
  - destruct (process_log_cases w inp out q t b) as [H|(c & _ & H)];
      [left; exact H|right].
    exists (saved_image out c), (saved_quality out q). exact H.
  - intros c Hc.
    exists (saved_image out c), (saved_quality out q).
    now apply crops_to_log.
  - apply lossy_suffix_spec.
  - apply lossy_suffix_spec.
  - intros s s' H. unfold lossy_suffix. now rewrite H.
  - apply suffix_of_extension.
Qed.

End Format.

(** ** [main] *)

Section Main.

Context {P : Pillow} {B : Builtins}.

Implicit Types (w : world Image) (argv pre post : list string).

Lemma main_few_arguments argv w :
  (length argv < 3)%nat ->
  main argv w =
  (World (files w) (stdout w ++ [__doc__]) (io_log w), Raise (SystemExit 1)).
Proof.
  intros Hlen. unfold main.
  apply Nat.ltb_lt in Hlen. rewrite Hlen. reflexivity.
Qed.

Lemma main_with_quality argv w quality :
  (3 <= length argv)%nat ->
  quality_loop argv (enumerate argv) 90 = Ok quality ->
  main argv w = main_run (argv !!! 1%nat) (argv !!! 2%nat) quality w.
Proof.
  intros Hlen Hq. unfold main.
  apply Nat.ltb_ge in Hlen. rewrite Hlen.
  unfold bind, lift. rewrite Hq. reflexivity.
Qed.

Lemma main_quality_raises argv w e :
  (3 <= length argv)%nat ->
  quality_loop argv (enumerate argv) 90 = Raise e ->
  main argv w = (w, Raise e).
Proof.
  intros Hlen Hq. unfold main.
  apply Nat.ltb_ge in Hlen. rewrite Hlen.
  unfold bind, lift. rewrite Hq. reflexivity.
Qed.

Lemma main_run_missing inp out quality w :
  files w !! inp = None ->
  main_run inp out quality w =
  (World (files w)
     (stdout w ++ ["Error: Input file not found: " +:+ inp])
     (io_log w ++ [ExistsCall inp]),
   Raise (SystemExit 1)).
Proof.
  intros Hf. unfold main_run, bind, Path_exists.
  rewrite files_log, Hf. reflexivity.
Qed.

Lemma main_run_found inp out quality w :
  is_Some (files w !! inp) ->
  main_run inp out quality w =
  match process_screenshot inp out quality CROP_TOP CROP_BOTTOM
          (log (ExistsCall inp) w) with
  | (w1, Ok (width, height)) =>
      (World (files w1)
         (stdout w1 ++ ["Processed: " +:+ pretty width +:+ "x"
                        +:+ pretty height +:+ " -> " +:+ out])
         (io_log w1), Ok tt)
  | (w1, Raise e) => (w1, Raise e)
  end.
Proof.
  intros Hf. unfold main_run, bind, Path_exists.
  rewrite files_log, (bool_decide_eq_true_2 _ Hf).
  change (negb true) with false. cbv beta iota.
  destruct (process_screenshot _ _ _ _ _ _) as [w1 [[width height]|e]];
    reflexivity.
Qed.

(** The text of a message contains what it ends with. *)
Lemma starts_with_refl l : PyStr.starts_with l l = true.
Proof.
  induction l as [|x l IH]; simpl; [reflexivity|].
  now rewrite Ascii.eqb_refl, IH.
Qed.

Lemma contains_tail (head s : string) :
  PyStr.contains s (head +:+ s) = true.
Proof.
  unfold PyStr.contains. rewrite chars_app.
  induction (PyStr.chars head) as [|x l IH]; simpl.
  - destruct (PyStr.chars s); simpl; [reflexivity|].
    now rewrite Ascii.eqb_refl, starts_with_refl.
  - rewrite IH. apply orb_true_r.
Qed.

End Main.

Section Quality.

Context {P : Pillow} {B : Builtins}.

Implicit Types (w : world Image) (argv pre post l : list string).

Lemma quality_loop_app argv (t1 t2 : list (nat * string)) q :
  quality_loop argv (t1 ++ t2) q =
  match quality_loop argv t1 q with
  | Ok q' => quality_loop argv t2 q'
  | Raise e => Raise e
  end.
Proof.
  revert q. induction t1 as [|[i arg] t1 IH]; intros q; simpl;
    [reflexivity|].
  destruct (String.eqb arg "--quality" && (i + 1 <? length argv)%nat);
    [|apply IH].
  destruct (int (argv !!! (i + 1)%nat)); [apply IH|reflexivity].
Qed.

Lemma enumerate_from_app k l1 l2 :
  enumerate_from k (l1 ++ l2) =
  enumerate_from k l1 ++ enumerate_from (k + length l1) l2.
Proof.
  revert k. induction l1 as [|x l1 IH]; intros k; simpl.
  - now rewrite Nat.add_0_r.
  - rewrite IH. do 3 f_equal. lia.
Qed.

(** Arguments other than the flag leave [quality] alone. *)
Lemma quality_loop_no_flag argv k l q :
  "--quality" ∉ l -> quality_loop argv (enumerate_from k l) q = Ok q.
Proof.
  revert k. induction l as [|x l IH]; intros k Hn; simpl; [reflexivity|].
  apply not_elem_of_cons in Hn as [Hx Hl].
  apply not_eq_sym, String.eqb_neq in Hx. rewrite Hx. simpl.
  now apply IH.
Qed.

(** A flag with nothing after it leaves [quality] alone too. *)
Lemma quality_flag_without_value pre :
  "--quality" ∉ pre ->
  quality_loop (pre ++ ["--quality"]) (enumerate (pre ++ ["--quality"])) 90
    = Ok 90.
Proof.
  intros Hn. unfold enumerate.
  rewrite enumerate_from_app, quality_loop_app.
  rewrite (quality_loop_no_flag _ _ _ _ Hn). simpl.
  rewrite length_app. simpl.
  replace (_ <? _)%nat with false; [reflexivity|].
  symmetry. apply Nat.ltb_ge. lia.
Qed.

(** Line 90 runs for a flag that has an argument after it. *)
Lemma quality_loop_flag argv i (todo : list (nat * string)) q :
  (i + 1 < length argv)%nat ->
  quality_loop argv ((i, "--quality") :: todo) q =
  match int (argv !!! (i + 1)%nat) with
  | Ok q' => quality_loop argv todo q'
  | Raise e => Raise e
  end.
Proof.
  intros Hlen. apply Nat.ltb_lt in Hlen. simpl. now rewrite Hlen.
Qed.

(** The last flag that has a value decides, once the loop got there. *)
Lemma quality_loop_last_flag pre s post n :
  let argv := pre ++ "--quality" :: s :: post in
  "--quality" ∉ s :: post ->
  is_Ok (quality_loop argv (enumerate pre) 90) ->
  int s = Ok n ->
  quality_loop argv (enumerate argv) 90 = Ok n.
Proof.
  intros argv Hn [q0 Hpre] Hs. unfold enumerate in *. unfold argv at 2.
  rewrite enumerate_from_app, quality_loop_app, Hpre.
  change (enumerate_from (0 + length pre) ("--quality" :: s :: post))
    with ((length pre, "--quality")
            :: enumerate_from (S (length pre)) (s :: post)).
  assert (Hlen : (length pre + 1 < length argv)%nat).
  { unfold argv. rewrite length_app. simpl. lia. }
  assert (Hat : argv !!! (length pre + 1)%nat = s).
  { unfold argv.
    change (pre ++ "--quality" :: s :: post)
      with (pre ++ ["--quality"] ++ s :: post).
    rewrite app_assoc. apply list_lookup_total_middle.
    rewrite length_app. reflexivity. }
  rewrite (quality_loop_flag _ _ _ _ Hlen), Hat, Hs.
  now apply quality_loop_no_flag.
Qed.

(** C9.  With at least two arguments, [main] runs lines 92-97 with
    [quality] 90 when no argument is [--quality], and with the integer
    [int] makes of the argument right after [--quality] when the flag
    is there: once for a single flag, and for the last one when the flag
    is repeated and the loop got past the earlier ones. *)
Theorem quality_from_flag argv w :
  (3 <= length argv)%nat ->
  ("--quality" ∉ argv ->
   quality_loop argv (enumerate argv) 90 = Ok 90 /\
   main argv w = main_run (argv !!! 1%nat) (argv !!! 2%nat) 90 w) /\
  (forall pre s post n,
     argv = pre ++ "--quality" :: s :: post ->
     "--quality" ∉ pre -> "--quality" ∉ s :: post ->
     int s = Ok n ->
     quality_loop argv (enumerate argv) 90 = Ok n /\
     main argv w = main_run (argv !!! 1%nat) (argv !!! 2%nat) n w) /\
  (forall pre s post n,
     argv = pre ++ "--quality" :: s :: post ->
     is_Ok (quality_loop argv (enumerate pre) 90) ->
     "--quality" ∉ s :: post ->
     int s = Ok n ->
     quality_loop argv (enumerate argv) 90 = Ok n /\
     main argv w = main_run (argv !!! 1%nat) (argv !!! 2%nat) n w).
Proof.
  intros Hlen.
  assert (Hlast : forall pre s post n,
     argv = pre ++ "--quality" :: s :: post ->
     is_Ok (quality_loop argv (enumerate pre) 90) ->
     "--quality" ∉ s :: post ->
     int s = Ok n ->
     quality_loop argv (enumerate argv) 90 = Ok n /\
     main argv w = main_run (argv !!! 1%nat) (argv !!! 2%nat) n w).
  { intros pre s post n Hargv Hpre Hn Hs.
    assert (Hq : quality_loop argv (enumerate argv) 90 = Ok n).
    { subst argv. now apply quality_loop_last_flag. }
    split; [exact Hq|]. now apply main_with_quality. }
  repeat split.
  - now apply quality_loop_no_flag.
  - apply main_with_quality; [exact Hlen|].
    now apply quality_loop_no_flag.
  - eapply Hlast; eauto.
    exists 90. now apply quality_loop_no_flag.
  - eapply Hlast; eauto.
    exists 90. now apply quality_loop_no_flag.
  - eapply Hlast; eauto.
  - eapply Hlast; eauto.
Qed.

End Quality.

Section MainClaims.

Context {P : Pillow} {B : Builtins}.

Implicit Types (w : world Image) (argv : list string).

(** What [main] does by its own count of arguments, [len(sys.argv)],
    which takes a flag for an argument like any other.  With fewer than
    two it prints the usage text and exits with status 1 without a single
    file call.  With two or more, a [--quality] value that [int] accepts
    and an input path that exists, it calls [process_screenshot] on the
    first two arguments with the default margins; when that returns
    (width, height) it prints the [Processed:] line with both numbers
    and the output path and exits with status 0, and when that raises,
    so does [main]. *)
Lemma main_usage_or_transform argv w :
  ((length argv < 3)%nat ->
   main argv w =
     (World (files w) (stdout w ++ [__doc__]) (io_log w),
      Raise (SystemExit 1)) /\
   exit_status (snd (main argv w)) <> 0 /\
   io_log (fst (main argv w)) = io_log w /\
   files (fst (main argv w)) = files w) /\
  ((3 <= length argv)%nat ->
   forall quality,
     quality_loop argv (enumerate argv) 90 = Ok quality ->
     is_Some (files w !! (argv !!! 1%nat)) ->
     let input_path := argv !!! 1%nat in
     let output_path := argv !!! 2%nat in
     exists w1 r,
       process_screenshot input_path output_path quality
         CROP_TOP CROP_BOTTOM (log (ExistsCall input_path) w) = (w1, r) /\
       match r with
       | Ok (width, height) =>
           main argv w =
             (World (files w1)
                (stdout w1 ++
                   ["Processed: " +:+ pretty width +:+ "x"
                    +:+ pretty height +:+ " -> " +:+ output_path])
                (io_log w1), Ok tt) /\
           exit_status (snd (main argv w)) = 0
       | Raise e => main argv w = (w1, Raise e)
       end).
Proof.
  split.
  - intros Hlen. rewrite (main_few_arguments _ _ Hlen). simpl.
    repeat split; discriminate.
  - intros Hlen quality Hq Hf input_path output_path.
    rewrite (main_with_quality _ _ _ Hlen Hq).
    fold input_path output_path.
    rewrite (main_run_found _ _ _ _ Hf).
    destruct (process_screenshot _ _ _ _ _ _) as [w1 r].
    exists w1, r. split; [reflexivity|].
    destruct r as [[width height]|e]; simpl; auto.
Qed.

(** C8, as the code has it.  With two or more arguments, a [--quality]
    value that [int] accepts and an input path that is not there,
    [main] prints the not-found message, which contains the path, and
    exits with status 1; no file is changed and no [save] is made. *)
Theorem main_input_not_found argv w quality :
  (3 <= length argv)%nat ->
  quality_loop argv (enumerate argv) 90 = Ok quality ->
  files w !! (argv !!! 1%nat) = None ->
  let input_path := argv !!! 1%nat in
  let message := "Error: Input file not found: " +:+ input_path in
  main argv w =
    (World (files w) (stdout w ++ [message])
       (io_log w ++ [ExistsCall input_path]),
     Raise (SystemExit 1)) /\
  exit_status (snd (main argv w)) = 1 /\
  PyStr.contains input_path message = true /\
  files (fst (main argv w)) = files w /\
  save_calls (io_log (fst (main argv w))) = save_calls (io_log w).
Proof.
  intros Hlen Hq Hf input_path message.
  rewrite (main_with_quality _ _ _ Hlen Hq).
  fold input_path. rewrite (main_run_missing _ _ _ _ Hf). simpl.
  repeat split.
  - apply contains_tail.
  - unfold save_calls. rewrite List.filter_app. simpl. apply app_nil_r.
Qed.

End MainClaims.

Section UsageCheck.

Context {P : Pillow} {B : Builtins}.

Implicit Types (w : world Image).

(** C7: where the code parts from the claim.  The usage line of the
    docstring has two positional arguments and then the optional flag,
    but line 79 counts every argument.  With the output path left out
    and [--quality N] given there is one positional argument and
    [len(sys.argv)] is 4: no usage text is printed, and [main] goes on
    with [--quality] as the output path (a lossless one) and N as the
    quality; when the input is there it runs the transform on them. *)
Theorem flag_taken_for_output_path prog inp s n w :
  prog <> "--quality" -> inp <> "--quality" ->
  int s = Ok n ->
  let argv := [prog; inp; "--quality"; s] in
  ~ (length argv < 3)%nat /\
  main argv w = main_run inp "--quality" n w /\
  saved_format "--quality" = PNG /\
  (is_Some (files w !! inp) ->
   main argv w =
     match process_screenshot inp "--quality" n CROP_TOP CROP_BOTTOM
             (log (ExistsCall inp) w) with
     | (w1, Ok (width, height)) =>
         (World (files w1)
            (stdout w1 ++ ["Processed: " +:+ pretty width +:+ "x"
                           +:+ pretty height +:+ " -> " +:+ "--quality"])
            (io_log w1), Ok tt)
     | (w1, Raise e) => (w1, Raise e)
     end).
Proof.
  intros Hprog Hinp Hs argv.
  assert (Hq : quality_loop argv (enumerate argv) 90 = Ok n).
  { apply String.eqb_neq in Hprog, Hinp.
    unfold argv, enumerate. simpl. rewrite Hprog, Hinp. simpl.
    rewrite Hs. now rewrite andb_false_r. }
  assert (Hm : main argv w = main_run inp "--quality" n w).
  { apply (main_with_quality argv w n); [simpl; lia|exact Hq]. }
  split; [simpl; lia|]. split; [exact Hm|]. split; [reflexivity|].
  intros Hf. rewrite Hm. now apply main_run_found.
Qed.

End UsageCheck.

(** ** The reference instance obeys the laws *)

#[export] Instance RefPillow_laws : PillowLaws RefPillow.
Proof.
  split; simpl.
  - intros [[w h] m] r. unfold Ref.rotate. simpl.
    intros Hr. injection Hr as <-. reflexivity.
  - intros im x0 y0 x1 y1 c. unfold Ref.crop.
    destruct (x1 <? x0) eqn:Hx; [discriminate|].
    destruct (y1 <? y0) eqn:Hy; [discriminate|].
    intros Hc. injection Hc as <-. simpl.
    apply Z.ltb_ge in Hx, Hy. f_equal; lia.
  - intros data im. unfold Ref.decode.
    destruct data as [|tag [|w1 [|w0 [|h1 [|h0 rest]]]]]; try discriminate.
    destruct (Ref.mode_of_tag tag); [|discriminate].
    destruct (0 <? _) eqn:Hw; [|discriminate].
    destruct (0 <? 256 * Ref.Z_of_byte h1 + _) eqn:Hh; [|discriminate].
    simpl. intros Hd. injection Hd as <-. simpl.
    apply Z.ltb_lt in Hw, Hh. auto.
  - intros im0 angle expand im x0 y0 x1 y1 _ Hx _ Hy _.
    unfold Ref.crop.
    destruct (Z.ltb_spec x1 x0); [lia|].
    destruct (Z.ltb_spec y1 y0); [lia|].
    eexists. reflexivity.
  - reflexivity.
  - reflexivity.
  - intros [[w h] m] p fmt qq o fs Hempty.
    unfold Ref.save, Ref.encode. simpl in *.
    replace ((w <=? 0) || (h <=? 0)) with true.
    + destruct (fs !! p) as [[old|]|]; destruct fmt; eexists; reflexivity.
    + symmetry. apply orb_true_iff.
      destruct Hempty; [left|right]; now apply Z.leb_le.
  - intros [[w h] m] p qq o fs Ha. simpl in Ha.
    apply bool_decide_eq_true in Ha.
    rewrite !elem_of_cons, elem_of_nil in Ha.
    unfold Ref.save, Ref.encode. simpl.
    destruct Ha as [->|[->|[->|[->|[->|[]]]]]];
      destruct (fs !! p) as [[old|]|];
      destruct ((w <=? 0) || (h <=? 0));
      eexists; reflexivity.
Qed.

(** ** Scenarios on the reference instance *)

(** Default margins: 2048x2732 becomes 2732x1876. *)
Example scenario_default_margins :
  snd (process_screenshot "/tmp/raw.png" "/tmp/clean.jpg" 90
         CROP_TOP CROP_BOTTOM shot_rgba) = Ok (2732, 1876).
Proof. vm_compute. reflexivity. Qed.

(** No margins: the full rotated image. *)
Example scenario_no_margins :
  snd (process_screenshot "/tmp/raw.png" "/tmp/clean.jpg" 90 0 0 shot_rgba)
  = Ok (2732, 2048).
Proof. vm_compute. reflexivity. Qed.

(** An upper-case [.PNG] destination is written by the PNG codec. *)
Example scenario_upper_png :
  io_log (fst (process_screenshot "/tmp/raw.png" "/tmp/clean.PNG" 90
                 CROP_TOP CROP_BOTTOM shot_rgba)) =
  [OpenCall "/tmp/raw.png";
   SaveCall "/tmp/clean.PNG" (Ref.Img (2732, 1876) "RGBA") PNG None true].
Proof. vm_compute. reflexivity. Qed.

(** The whole command line. *)
Example scenario_main :
  let run := main argv_quality_80 shot_rgba in
  snd run = Ok tt /\
  stdout (fst run) = ["Processed: 2732x1876 -> /tmp/clean.jpg"] /\
  io_log (fst run) =
    [ExistsCall "/tmp/raw.png"; OpenCall "/tmp/raw.png";
     SaveCall "/tmp/clean.jpg" (Ref.Img (2732, 1876) "RGB") JPEG (Some 80)
       true].
Proof. vm_compute. auto. Qed.

(** [main] counts every argument, flags included: with the output path
    left out, [--quality] is taken for it. *)
Example scenario_flag_as_output :
  let run := main argv_flag_second shot_rgba in
  snd run = Ok tt /\
  stdout (fst run) = ["Processed: 2732x1876 -> --quality"] /\
  io_log (fst run) =
    [ExistsCall "/tmp/raw.png"; OpenCall "/tmp/raw.png";
     SaveCall "--quality" (cropped_ipad "RGBA") PNG None true].
Proof. vm_compute. auto. Qed.

(** Margins that eat the whole height: [crop] hands back an image with
    no rows and the codec refuses it. *)
Example scenario_degenerate :
  exists e,
    snd (process_screenshot "/tmp/raw.png" "/tmp/clean.png" 90 2000 48
           shot_rgba) = Raise e.
Proof. eexists. vm_compute. reflexivity. Qed.

(** ** The theorems at work, and where the specification goes too far *)

Lemma shot_rgba_crops_to :
  crops_to shot_rgba "/tmp/raw.png" CROP_TOP CROP_BOTTOM (cropped_ipad "RGBA").
Proof.
  exists (raw_ipad x03), (Ref.Img (2048, 2732) "RGBA"),
         (Ref.Img (2732, 2048) "RGBA").
  repeat split.
Defined.

Lemma shot_la_crops_to :
  crops_to shot_la "/tmp/raw.png" CROP_TOP CROP_BOTTOM (cropped_ipad "LA").
Proof.
  exists (raw_ipad x01), (Ref.Img (2048, 2732) "LA"),
         (Ref.Img (2732, 2048) "LA").
  repeat split.
Defined.

Lemma process_screenshot_dimensions_witness :
  snd (process_screenshot "/tmp/raw.png" "/tmp/clean.jpg" 90 130 42 shot_rgba)
  = Ok (2732, 1876).
Proof.
  destruct (process_screenshot_dimensions shot_rgba "/tmp/raw.png"
              "/tmp/clean.jpg" 90 130 42 (raw_ipad x03)
              (Ref.Img (2048, 2732) "RGBA") (Ref.Img (2732, 2048) "RGBA")
              2048 2732)
    as (_ & c & Hc & _ & _ & _ & Hret & _);
    [reflexivity|reflexivity|reflexivity|reflexivity|lia|lia|lia|].
  vm_compute in Hc. injection Hc as <-.
  erewrite Hret by (vm_compute; reflexivity). reflexivity.
Defined.

Lemma format_from_extension_witness :
  Path.suffix ("shots/" +:+ "Home" +:+ "." +:+ "PNG") = "." +:+ "PNG" /\
  lossy_suffix ("." +:+ "PNG") = false.
Proof.
  pose proof (format_from_extension shot_rgba "/tmp/raw.png" "shots/Home.PNG"
                90 130 42) as (_ & _ & _ & _ & Hsuffix & Hpng & _).
  split; [|exact Hpng].
  apply Hsuffix; try discriminate; try decide_it.
  right. exists "shots". reflexivity.
Defined.

Lemma lossy_output_has_no_alpha_witness :
  io_log (fst (process_screenshot "/tmp/raw.png" "/tmp/clean.jpg" 90
                 CROP_TOP CROP_BOTTOM shot_rgba)) =
  [OpenCall "/tmp/raw.png";
   SaveCall "/tmp/clean.jpg" (cropped_ipad "RGB") JPEG (Some 90) true] /\
  exists e,
    snd (process_screenshot "/tmp/raw.png" "/tmp/clean.jpg" 90
           CROP_TOP CROP_BOTTOM shot_la) = Raise e.
Proof.
  split.
  - destruct (lossy_output_has_no_alpha shot_rgba "/tmp/raw.png"
                "/tmp/clean.jpg" 90 CROP_TOP CROP_BOTTOM (cropped_ipad "RGBA")
                shot_rgba_crops_to eq_refl) as [Hrgba _].
    apply (proj1 (Hrgba eq_refl)).
  - destruct (lossy_output_has_no_alpha shot_la "/tmp/raw.png"
                "/tmp/clean.jpg" 90 CROP_TOP CROP_BOTTOM (cropped_ipad "LA")
                shot_la_crops_to eq_refl) as (_ & _ & Hla & _).
    apply Hla; [discriminate|reflexivity].
Defined.

Lemma degenerate_crop_propagates_witness :
  exists e,
    snd (process_screenshot "/tmp/raw.png" "/tmp/clean.png" 90 2000 48
           shot_rgba) = Raise e.
Proof.
  destruct (degenerate_crop_propagates shot_rgba "/tmp/raw.png"
              "/tmp/clean.png" 90 2000 48 (raw_ipad x03)
              (Ref.Img (2048, 2732) "RGBA") (Ref.Img (2732, 2048) "RGBA"))
    as (e & He & _);
    [reflexivity|reflexivity|reflexivity|simpl; lia|].
  exists e. exact He.
Defined.

Lemma lossless_ignores_quality_witness :
  process_screenshot "/tmp/raw.png" "/tmp/clean.PNG" 10 130 42 shot_rgba =
  process_screenshot "/tmp/raw.png" "/tmp/clean.PNG" 95 130 42 shot_rgba.
Proof.
  apply lossless_ignores_quality. reflexivity.
Defined.

Lemma failure_before_save_writes_nothing_witness :
  process_screenshot "/tmp/raw.png" "/tmp/clean.jpg" 90 130 42 shot_corrupt
  = (log (OpenCall "/tmp/raw.png") shot_corrupt, Raise UnidentifiedImageError).
Proof.
  apply (failure_before_save_writes_nothing shot_corrupt "/tmp/raw.png"
           "/tmp/clean.jpg" 90 130 42 [x00]); reflexivity.
Defined.

Lemma convert_only_for_exact_RGBA_witness :
  io_log (fst (process_screenshot "/tmp/raw.png" "/tmp/clean.jpg" 90
                 CROP_TOP CROP_BOTTOM shot_la)) =
  [OpenCall "/tmp/raw.png";
   SaveCall "/tmp/clean.jpg" (cropped_ipad "LA") JPEG (Some 90) true].
Proof.
  apply (convert_only_for_exact_RGBA shot_la "/tmp/raw.png" "/tmp/clean.jpg"
           90 CROP_TOP CROP_BOTTOM (cropped_ipad "LA"));
    [exact shot_la_crops_to|reflexivity|discriminate].
Defined.

Lemma quality_from_flag_witness :
  quality_loop argv_quality_80 (enumerate argv_quality_80) 90 = Ok 80.
Proof.
  destruct (quality_from_flag argv_quality_80 shot_rgba) as (_ & Hone & _).
  - simpl. lia.
  - apply (Hone ["process_ipad_screenshot.py"; "/tmp/raw.png";
                 "/tmp/clean.jpg"] "80" [] 80);
      try reflexivity; decide_it.
Defined.

Lemma flag_taken_for_output_path_witness :
  exit_status (snd (main argv_flag_second shot_rgba)) = 0 /\
  is_Some (files (fst (main argv_flag_second shot_rgba)) !! "--quality").
Proof.
  destruct (flag_taken_for_output_path "process_ipad_screenshot.py"
              "/tmp/raw.png" "90" 90 shot_rgba)
    as (_ & Hm & _); [discriminate|discriminate|reflexivity|].
  unfold argv_flag_second. rewrite Hm.
  split; [vm_compute; reflexivity|eexists; vm_compute; reflexivity].
Defined.

Lemma main_input_not_found_witness :
  main argv_missing_input empty_world =
  (World ∅ ["Error: Input file not found: missing.png"]
     [ExistsCall "missing.png"], Raise (SystemExit 1)).
Proof.
  apply (main_input_not_found argv_missing_input empty_world 90);
    [simpl; lia|reflexivity|reflexivity].
Defined.

(** C3 as the specification states it fails: an LA capture sent to a
    [.jpg] path carries alpha after the crop, the output is lossy, and
    the image that reaches the JPEG encoder is still in mode LA (Pillow's
    encoder then refuses it). *)
Lemma lossy_alpha_not_converted_LA :
  let run := process_screenshot "/tmp/raw.png" "/tmp/clean.jpg" 90
               CROP_TOP CROP_BOTTOM shot_la in
  crops_to shot_la "/tmp/raw.png" CROP_TOP CROP_BOTTOM (cropped_ipad "LA") /\
  lossy_suffix (Path.suffix "/tmp/clean.jpg") = true /\
  has_alpha (mode (cropped_ipad "LA")) = true /\
  io_log (fst run) =
    [OpenCall "/tmp/raw.png";
     SaveCall "/tmp/clean.jpg" (cropped_ipad "LA") JPEG (Some 90) true] /\
  snd run = Raise (OSError "cannot write mode LA as JPEG").
Proof.
  split; [exact shot_la_crops_to|]. vm_compute. auto.
Qed.

(** C8 as the specification states it fails: the input is missing, but
    [int] raises on the [--quality] value first; [main] prints nothing,
    and the exception does not name the path. *)
Lemma missing_input_hidden_by_bad_quality :
  let run := main argv_missing_input_bad_quality empty_world in
  files empty_world !! "missing.png" = None /\
  stdout (fst run) = [] /\
  snd run = Raise (ValueError "invalid literal for int() with base 10: 'abc'") /\
  PyStr.contains "missing.png"
    "invalid literal for int() with base 10: 'abc'" = false.
Proof.
  vm_compute. auto.
Qed.

(** * Further properties of the two functions *)

Section Effects.

Context {P : Pillow} {B : Builtins}.

Implicit Types (w : world Image) (im img r c : Image).

(** The two ways a call can go: out before the [save] with nothing but
    the [open] logged, or on to the [save] of the crop. *)
Lemma process_world_cases w inp out q t b :
  (exists e,
     process_screenshot inp out q t b w = (log (OpenCall inp) w, Raise e)) \/
  (exists c, crops_to w inp t b c /\
     process_screenshot inp out q t b w =
     bind (Image_save (saved_image out c) out (saved_format out)
             (saved_quality out q) true)
          (fun _ => ret (size (saved_image out c)))
          (log (OpenCall inp) w)).
Proof.
  destruct (files w !! inp) as [[data|]|] eqn:Hf.
  - pose proof (Image_open_file _ _ _ Hf) as Ho.
    destruct (decode data) as [img|e] eqn:Hd.
    + destruct (rotate img 90 true) as [r|e] eqn:Hr.
      * destruct (crop r (0, t, fst (size r), snd (size r) - b))
          as [c|e] eqn:Hc.
        -- right. exists c.
           assert (Hrun : crops_to w inp t b c)
             by (exists data, img, r; auto).
           split; [exact Hrun|]. now apply crops_to_save.
        -- left. exists e. eapply process_crop_raises; eauto.
      * left. exists e. eapply process_rotate_raises; eauto.
    + left. exists e. now apply process_open_raises.
  - left. exists (IsADirectoryError inp).
    unfold process_screenshot, bind, Image_open.
    rewrite files_log, Hf. reflexivity.
  - left. exists (FileNotFoundError inp).
    unfold process_screenshot, bind, Image_open.
    rewrite files_log, Hf. reflexivity.
Qed.

(** What a run that got to the [save] returns and leaves. *)
Lemma saved_run c0 out qq0 (fmt : format) (dims : Z * Z) w0 :
  let run := bind (Image_save c0 out fmt qq0 true)
                  (fun _ => ret dims) w0 in
  files (fst run) = fst (save c0 out fmt qq0 true (files w0)) /\
  stdout (fst run) = stdout w0 /\
  (forall d, snd run = Ok d ->
     d = dims /\ snd (save c0 out fmt qq0 true (files w0)) = Ok tt) /\
  (forall e, snd run = Raise e ->
     snd (save c0 out fmt qq0 true (files w0)) = Raise e).
Proof.
  intros run. unfold run.
  rewrite bind_ret_world, Image_save_files, Image_save_stdout.
  pose proof (Image_save_result c0 out fmt qq0 true w0) as Hres.
  unfold bind, ret.
  destruct (Image_save c0 out fmt qq0 true w0) as [w1 [[]|e]];
    simpl in *; repeat split; try congruence; discriminate.
Qed.

(** X4.  A call returns only after the [save] has: if it returns a pair,
    the crop was reached, Pillow's [save] of the image handed to it
    returned, the files are the ones that [save] left, and the pair is the
    size of that image. *)
Theorem process_screenshot_returns_after_save w inp out q t b dims :
  snd (process_screenshot inp out q t b w) = Ok dims ->
  exists c,
    crops_to w inp t b c /\
    snd (save (saved_image out c) out (saved_format out)
           (saved_quality out q) true (files w)) = Ok tt /\
    files (fst (process_screenshot inp out q t b w))
      = fst (save (saved_image out c) out (saved_format out)
               (saved_quality out q) true (files w)) /\
    dims = size (saved_image out c).
Proof.
  destruct (process_world_cases w inp out q t b) as [[e ->]|(c & Hc & ->)];
    [discriminate|].
  intros Hret. exists c.
  destruct (saved_run (saved_image out c) out (saved_quality out q)
              (saved_format out) (size (saved_image out c))
              (log (OpenCall inp) w)) as (Hfs & _ & Hok & _).
  destruct (Hok _ Hret) as [-> Hsave].
  repeat split; assumption.
Qed.

(** X5.  [process_screenshot] prints nothing, on any path through it. *)
Theorem process_screenshot_prints_nothing w inp out q t b :
  stdout (fst (process_screenshot inp out q t b w)) = stdout w.
Proof.
  destruct (process_world_cases w inp out q t b) as [[e ->]|(c & _ & ->)].
  - reflexivity.
  - rewrite bind_ret_world, Image_save_stdout. reflexivity.
Qed.

(** X8.  [process_screenshot] has no check of its own on the input path:
    when nothing is there, or a directory is, the exception of
    [Image.open] leaves the call, nothing is saved and no file changes. *)
Theorem process_screenshot_unreadable_input w inp out q t b :
  files w !! inp = None \/ files w !! inp = Some Dir ->
  exists e,
    process_screenshot inp out q t b w = (log (OpenCall inp) w, Raise e) /\
    (files w !! inp = None -> e = FileNotFoundError inp) /\
    (files w !! inp = Some Dir -> e = IsADirectoryError inp) /\
    files (fst (process_screenshot inp out q t b w)) = files w /\
    save_calls (io_log (fst (process_screenshot inp out q t b w)))
      = save_calls (io_log w).
Proof.
  intros Hf.
  assert (Hrun : exists e,
    process_screenshot inp out q t b w = (log (OpenCall inp) w, Raise e) /\
    (files w !! inp = None -> e = FileNotFoundError inp) /\
    (files w !! inp = Some Dir -> e = IsADirectoryError inp)).
  { destruct Hf as [Hf|Hf].
    - exists (FileNotFoundError inp). repeat split; [|congruence].
      unfold process_screenshot, bind, Image_open.
      rewrite files_log, Hf. reflexivity.
    - exists (IsADirectoryError inp). repeat split; [|congruence].
      unfold process_screenshot, bind, Image_open.
      rewrite files_log, Hf. reflexivity. }
  destruct Hrun as (e & Hrun & Hnone & Hdir).
  exists e. rewrite Hrun. simpl. repeat split; try assumption.
  unfold save_calls. rewrite List.filter_app. simpl. apply app_nil_r.
Qed.

End Effects.

Section MainEffects.

Context {P : Pillow} {B : Builtins}.

Implicit Types (w : world Image) (argv pre post : list string).

(** The four ways through [main]. *)
Lemma main_cases argv w :
  let input_path := argv !!! 1%nat in
  let output_path := argv !!! 2%nat in
  ((length argv < 3)%nat /\
   main argv w =
     (World (files w) (stdout w ++ [__doc__]) (io_log w),
      Raise (SystemExit 1))) \/
  ((3 <= length argv)%nat /\
   exists e, quality_loop argv (enumerate argv) 90 = Raise e /\
             main argv w = (w, Raise e)) \/
  ((3 <= length argv)%nat /\
   exists quality,
     quality_loop argv (enumerate argv) 90 = Ok quality /\
     files w !! input_path = None /\
     main argv w =
       (World (files w)
          (stdout w ++ ["Error: Input file not found: " +:+ input_path])
          (io_log w ++ [ExistsCall input_path]),
        Raise (SystemExit 1))) \/
  ((3 <= length argv)%nat /\
   exists quality,
     quality_loop argv (enumerate argv) 90 = Ok quality /\
     is_Some (files w !! input_path) /\
     main argv w =
       match process_screenshot input_path output_path quality
               CROP_TOP CROP_BOTTOM (log (ExistsCall input_path) w) with
       | (w1, Ok (width, height)) =>
           (World (files w1)
              (stdout w1 ++ ["Processed: " +:+ pretty width +:+ "x"
                             +:+ pretty height +:+ " -> " +:+ output_path])
              (io_log w1), Ok tt)
       | (w1, Raise e) => (w1, Raise e)
       end).
Proof.
  intros input_path output_path.
  destruct (Nat.lt_ge_cases (length argv) 3) as [Hlen|Hlen].
  - left. split; [exact Hlen|]. now apply main_few_arguments.
  - right.
    destruct (quality_loop argv (enumerate argv) 90) as [quality|e] eqn:Hq.
    + right. rewrite (main_with_quality _ _ _ Hlen Hq).
      fold input_path output_path.
      destruct (files w !! input_path) as [n|] eqn:Hf.
      * right. split; [exact Hlen|]. exists quality.
        repeat split; [eauto|].
        apply main_run_found. rewrite Hf. eauto.
      * left. split; [exact Hlen|]. exists quality.
        repeat split. now apply main_run_missing.
    + left. split; [exact Hlen|]. exists e.
      split; [reflexivity|]. now apply main_quality_raises.
Qed.

(** X1.  The [--quality] value is read before any file is looked at: when
    [int] raises on the value of the first flag, [main] raises that
    exception and leaves the world as it found it - no existence check,
    no message, whether or not the input is there. *)
Theorem main_bad_quality_aborts_first argv w pre s post e :
  (3 <= length argv)%nat ->
  argv = pre ++ "--quality" :: s :: post ->
  "--quality" ∉ pre ->
  int s = Raise e ->
  quality_loop argv (enumerate argv) 90 = Raise e /\
  main argv w = (w, Raise e).
Proof.
  intros Hlen Hargv Hpre Hs.
  assert (Hq : quality_loop argv (enumerate argv) 90 = Raise e).
  { unfold enumerate. rewrite Hargv at 2.
    rewrite enumerate_from_app, quality_loop_app.
    rewrite (quality_loop_no_flag _ _ _ _ Hpre).
    change (enumerate_from (0 + length pre) ("--quality" :: s :: post))
      with ((length pre, "--quality")
              :: enumerate_from (S (length pre)) (s :: post)).
    assert (Hi : (length pre + 1 < length argv)%nat).
    { rewrite Hargv, length_app. simpl. lia. }
    assert (Hat : argv !!! (length pre + 1)%nat = s).
    { rewrite Hargv.
      change (pre ++ "--quality" :: s :: post)
        with (pre ++ ["--quality"] ++ s :: post).
      rewrite app_assoc. apply list_lookup_total_middle.
      rewrite length_app. reflexivity. }
    now rewrite (quality_loop_flag _ _ _ _ Hi), Hat, Hs. }
  split; [exact Hq|]. now apply main_quality_raises.
Qed.

(** X2.  A [--quality] that is the last argument has no value to read:
    line 89 skips it and [main] goes on with quality 90. *)
Theorem main_flag_without_value argv w pre :
  (3 <= length argv)%nat ->
  argv = pre ++ ["--quality"] ->
  "--quality" ∉ pre ->
  quality_loop argv (enumerate argv) 90 = Ok 90 /\
  main argv w = main_run (argv !!! 1%nat) (argv !!! 2%nat) 90 w.
Proof.
  intros Hlen Hargv Hpre.
  assert (Hq : quality_loop argv (enumerate argv) 90 = Ok 90).
  { rewrite Hargv. now apply quality_flag_without_value. }
  split; [exact Hq|]. now apply main_with_quality.
Qed.

(** X6.  [main] returns (exit status 0) only after the [save] has: there
    were two arguments, the quality was read, the crop with the default
    margins was reached, Pillow's [save] to the output path returned and
    the files are the ones it left, and one [Processed:] line with the
    size of the saved image was printed. *)
Theorem main_returns_after_save argv w :
  snd (main argv w) = Ok tt ->
  let input_path := argv !!! 1%nat in
  let output_path := argv !!! 2%nat in
  (3 <= length argv)%nat /\
  exists quality c,
    quality_loop argv (enumerate argv) 90 = Ok quality /\
    crops_to w input_path CROP_TOP CROP_BOTTOM c /\
    snd (save (saved_image output_path c) output_path
           (saved_format output_path) (saved_quality output_path quality)
           true (files w)) = Ok tt /\
    files (fst (main argv w))
      = fst (save (saved_image output_path c) output_path
               (saved_format output_path)
               (saved_quality output_path quality) true (files w)) /\
    stdout (fst (main argv w)) =
      stdout w ++
      ["Processed: " +:+ pretty (fst (size (saved_image output_path c)))
       +:+ "x" +:+ pretty (snd (size (saved_image output_path c)))
       +:+ " -> " +:+ output_path].
Proof.
  intros Hret input_path output_path.
  destruct (main_cases argv w)
    as [[_ Hm]|[(_ & e & _ & Hm)|[(_ & q & _ & _ & Hm)|(Hlen & q & Hq & _ & Hm)]]];
    fold input_path output_path in Hm;
    try (rewrite Hm in Hret; discriminate).
  split; [exact Hlen|].
  destruct (process_world_cases (log (ExistsCall input_path) w) input_path
              output_path q CROP_TOP CROP_BOTTOM)
    as [[e Hp]|(c & Hc & Hp)].
  { rewrite Hp in Hm. rewrite Hm in Hret. discriminate. }
  destruct (saved_run (saved_image output_path c) output_path
              (saved_quality output_path q) (saved_format output_path)
              (size (saved_image output_path c))
              (log (OpenCall input_path) (log (ExistsCall input_path) w)))
    as (Hfs & Hout & Hok & _).
  rewrite Hp in Hm.
  destruct (bind _ _ _) as [w1 [d|e]]; simpl in *.
  - destruct (Hok d eq_refl) as [-> Hsave].
    exists q, c.
    destruct (size (saved_image output_path c)) as [width height].
    rewrite Hm. simpl. rewrite Hfs, Hout. auto.
  - rewrite Hm in Hret. discriminate.
Qed.

(** X9.  The file calls of [main] are, in this order and no others: the
    existence check of the first argument, the open of the first
    argument, and one save to the second argument in the format of its
    suffix.  A run makes none of them (usage error, bad quality value),
    the first, the first two, or all three. *)
Theorem main_file_calls argv w :
  let input_path := argv !!! 1%nat in
  let output_path := argv !!! 2%nat in
  let calls := io_log (fst (main argv w)) in
  calls = io_log w \/
  calls = io_log w ++ [ExistsCall input_path] \/
  calls = io_log w ++ [ExistsCall input_path; OpenCall input_path] \/
  exists im qq,
    calls = io_log w ++ [ExistsCall input_path; OpenCall input_path;
                         SaveCall output_path im (saved_format output_path)
                           qq true].
Proof.
  intros input_path output_path calls. unfold calls.
  destruct (main_cases argv w)
    as [[_ Hm]|[(_ & e & _ & Hm)|[(_ & q & _ & _ & Hm)|(_ & q & _ & _ & Hm)]]];
    fold input_path output_path in Hm; rewrite Hm.
  - left. reflexivity.
  - left. reflexivity.
  - right. left. reflexivity.
  - right. right.
    pose proof (process_log_cases (log (ExistsCall input_path) w) input_path
                  output_path q CROP_TOP CROP_BOTTOM) as Hlog.
    destruct (process_screenshot _ _ _ _ _ _) as [w1 [[width height]|e]];
      simpl in *;
      (destruct Hlog as [Hlog|(c & _ & Hlog)];
       [left
       |right; exists (saved_image output_path c),
                      (saved_quality output_path q)];
       rewrite Hlog, <- app_assoc; reflexivity).
Qed.

(** X7.  From the command line the margins are always 130 and 42: a
    W x H capture that decodes, with W above 172, is saved as
    H x (W - 172), and when Pillow's [save] of it returns, [main] leaves
    the files as that [save] left them, reports
    [Processed: HxW' -> output] and has made exactly three file calls:
    the existence check, the open and the save. *)
Theorem main_default_margins `{!PillowLaws P}
    argv w quality data img r c fs W H :
  (3 <= length argv)%nat ->
  quality_loop argv (enumerate argv) 90 = Ok quality ->
  let input_path := argv !!! 1%nat in
  let output_path := argv !!! 2%nat in
  files w !! input_path = Some (File data) ->
  decode data = Ok img ->
  size img = (W, H) ->
  rotate img 90 true = Ok r ->
  crop r (0, 130, H, W - 42) = Ok c ->
  172 < W ->
  save (saved_image output_path c) output_path (saved_format output_path)
    (saved_quality output_path quality) true (files w) = (fs, Ok tt) ->
  main argv w =
    (World fs
       (stdout w ++ ["Processed: " +:+ pretty H +:+ "x"
                     +:+ pretty (W - 172) +:+ " -> " +:+ output_path])
       (io_log w ++ [ExistsCall input_path; OpenCall input_path;
                     SaveCall output_path (saved_image output_path c)
                       (saved_format output_path)
                       (saved_quality output_path quality) true]),
     Ok tt).
Proof.
  intros Hlen Hq input_path output_path Hf Hd Hs Hr Hc HW Hsave.
  assert (Hsr : size r = (H, W)).
  { rewrite (rotate_quarter_size _ _ Hr), Hs. reflexivity. }
  destruct (decode_size _ _ Hd) as [_ HH]. rewrite Hs in HH; simpl in HH.
  assert (Hsi : size (saved_image output_path c) = (H, W - 172)).
  { assert (Hsc : size c = (H, W - 172)).
    { rewrite (crop_size _ _ _ _ _ _ Hc). f_equal; lia. }
    unfold saved_image.
    destruct (lossy_suffix _); [|exact Hsc].
    destruct (String.eqb _ _); [|exact Hsc].
    rewrite convert_size. exact Hsc. }
  assert (Hrun : crops_to (log (ExistsCall input_path) w) input_path
                   CROP_TOP CROP_BOTTOM c).
  { exists data, img, r. rewrite Hsr. simpl. auto. }
  rewrite (main_with_quality _ _ _ Hlen Hq). fold input_path output_path.
  rewrite main_run_found by (rewrite Hf; eauto).
  rewrite (crops_to_save _ _ output_path quality _ _ _ Hrun).
  unfold bind, ret.
  rewrite (Image_save_ok _ _ _ _ _ _ fs) by exact Hsave.
  rewrite Hsi. simpl. rewrite <- !app_assoc. reflexivity.
Qed.

End MainEffects.

(** ** The further properties on the reference instance *)

Lemma main_bad_quality_aborts_first_witness :
  main argv_missing_input_bad_quality empty_world =
  (empty_world,
   Raise (ValueError "invalid literal for int() with base 10: 'abc'")).
Proof.
  apply (main_bad_quality_aborts_first argv_missing_input_bad_quality
           empty_world
           ["process_ipad_screenshot.py"; "missing.png"; "out.jpg"]
           "abc" []);
    [simpl; lia|reflexivity|decide_it|reflexivity].
Defined.

Lemma main_flag_without_value_witness :
  quality_loop argv_flag_last (enumerate argv_flag_last) 90 = Ok 90.
Proof.
  apply (main_flag_without_value argv_flag_last shot_rgba
           ["process_ipad_screenshot.py"; "/tmp/raw.png"; "/tmp/clean.jpg"]);
    [simpl; lia|reflexivity|decide_it].
Defined.

Lemma process_screenshot_unreadable_input_witness :
  process_screenshot "missing.png" "out.jpg" 90 CROP_TOP CROP_BOTTOM
    empty_world
  = (log (OpenCall "missing.png") empty_world,
     Raise (FileNotFoundError "missing.png")).
Proof.
  destruct (process_screenshot_unreadable_input empty_world "missing.png"
              "out.jpg" 90 CROP_TOP CROP_BOTTOM (or_introl eq_refl))
    as (e & Hrun & Hnone & _).
  rewrite Hrun, (Hnone eq_refl). reflexivity.
Defined.

Lemma process_screenshot_returns_after_save_witness :
  exists c,
    (2732, 1876) = size (saved_image "/tmp/clean.jpg" c) /\
    snd (save (saved_image "/tmp/clean.jpg" c) "/tmp/clean.jpg" JPEG
           (Some 90) true (files shot_rgba)) = Ok tt.
Proof.
  destruct (process_screenshot_returns_after_save shot_rgba "/tmp/raw.png"
              "/tmp/clean.jpg" 90 CROP_TOP CROP_BOTTOM (2732, 1876))
    as (c & _ & Hsave & _ & Hdims);
    [vm_compute; reflexivity|].
  exists c. split; [exact Hdims|exact Hsave].
Defined.

Lemma main_returns_after_save_witness :
  (3 <= length argv_quality_80)%nat /\
  exists quality,
    quality_loop argv_quality_80 (enumerate argv_quality_80) 90 = Ok quality.
Proof.
  destruct (main_returns_after_save argv_quality_80 shot_rgba)
    as (Hlen & quality & c & Hq & _);
    [vm_compute; reflexivity|].
  split; [exact Hlen|]. exists quality. exact Hq.
Defined.

Lemma main_default_margins_witness :
  stdout (fst (main argv_quality_80 shot_rgba))
  = ["Processed: 2732x1876 -> /tmp/clean.jpg"].
Proof.
  erewrite (main_default_margins argv_quality_80 shot_rgba 80 (raw_ipad x03)
              (Ref.Img (2048, 2732) "RGBA") (Ref.Img (2732, 2048) "RGBA")
              (cropped_ipad "RGBA") _ 2048 2732);
    [reflexivity|simpl; lia|reflexivity|reflexivity|reflexivity|reflexivity
    |reflexivity|reflexivity|lia|vm_compute; reflexivity].
Defined.
